(** * Resume scanner: the ATS scoring service

    A shallow embedding of [src/services/resumeService.ts] and of the
    query function of [src/components/ResumeScanner.tsx], with the
    properties of the score, the keyword set, the suggestion list and the
    format validation that the specification states.  The second part
    adds the file state of the component, its error alert and its list
    of suggestions, and further properties of the service.

    Conventions of the embedding:
    - a JavaScript number that holds an integer is a [Z];
    - an optional field [f?: string[]] is an [option (list string)],
      [None] standing for [undefined];
    - a local variable that the source mutates ([let score], the array
      [suggestions], the [Set] of keywords) is re-bound by [let] after
      each statement, in the order of the source;
    - a rejected promise or a thrown exception is the left injection of
      a [sum], a resolved promise the right one. *)

From Stdlib Require Import ZArith List String Bool Lia Sorted.
From ExtLib Require Import Structures.Monad Structures.MonadExc.
From ExtLib Require Import Data.Monads.EitherMonad.
Import ListNotations.
Import MonadNotation.

Local Open Scope string_scope.
Local Open Scope list_scope.
Local Open Scope Z_scope.

(** ** The fragment of JavaScript the service relies on *)

Module JS.

(** [a.length] of an array. *)
Definition length {A : Type} (a : list A) : Z := Z.of_nat (List.length a).

(** [a?.length]: [undefined] when [a] is [undefined]. *)
Definition opt_length {A : Type} (a : option (list A)) : option Z :=
  option_map length a.

(** Truthiness of a value that is a number or [undefined]: [0] and
    [undefined] are falsy, every other integer is truthy. *)
Definition truthy (n : option Z) : bool :=
  match n with
  | Some k => negb (k =? 0)%Z
  | None => false
  end.

(** [a || d] for an optional array: every array, the empty one
    included, is an object and therefore truthy. *)
Definition or_else {A : Type} (a : option (list A)) (d : list A) : list A :=
  match a with
  | Some l => l
  | None => d
  end.

(** [a.forEach(f)] where [f] updates a captured variable of type [S]. *)
Definition forEach {A S : Type} (a : list A) (f : S -> A -> S) (s : S) : S :=
  fold_left f a s.

(** [a?.forEach(f)]: nothing happens when [a] is [undefined]. *)
Definition opt_forEach {A S : Type}
    (a : option (list A)) (f : S -> A -> S) (s : S) : S :=
  match a with
  | Some l => forEach l f s
  | None => s
  end.

(** [arr.push(x)]. *)
Definition push {A : Type} (arr : list A) (x : A) : list A := arr ++ [x].

(** A [Set<string>] is kept as the list of its members in insertion
    order, which is the order in which a [Set] is iterated. *)
Definition StringSet : Type := list string.

Definition new_Set : StringSet := [].

Definition has (s : StringSet) (x : string) : bool :=
  existsb (String.eqb x) s.

(** [s.add(x)]: a value already present keeps its position. *)
Definition add (s : StringSet) (x : string) : StringSet :=
  if has s x then s else s ++ [x].

(** [Array.from(s)]. *)
Definition Array_from (s : StringSet) : list string := s.

Definition Math_max (a b : Z) : Z := Z.max a b.
Definition Math_min (a b : Z) : Z := Z.min a b.

End JS.

(** ** Data model *)

Inductive Severity : Type := error | warning | success.

Record Suggestion : Type := mkSuggestion {
  text : string;
  severity : Severity
}.

Record FormatResult : Type := mkFormat {
  isValid : bool;
  issues : list string
}.

Record AnalysisResult : Type := mkResult {
  score : Z;
  keywords : list string;
  suggestions : list Suggestion;
  format : FormatResult
}.

Record APIResponse : Type := mkResponse {
  hasContactInfo : bool;
  hasWorkExperience : bool;
  hasEducation : bool;
  hasSkills : bool;
  formatIssues : option (list string);
  skills : option (list string);
  industryTerms : option (list string);
  actionVerbs : option (list string);
  strengths : option (list string)
}.

(** ** The four derivations of [resumeService.ts] *)

Definition calculateATSScore (analysisData : APIResponse) : Z :=
  let score := 100 in
  let score := if negb (hasContactInfo analysisData) then score - 10 else score in
  let score := if negb (hasWorkExperience analysisData) then score - 15 else score in
  let score := if negb (hasEducation analysisData) then score - 10 else score in
  let score := if negb (hasSkills analysisData) then score - 10 else score in
  let score :=
    if JS.truthy (JS.opt_length (formatIssues analysisData))
    then
      match formatIssues analysisData with
      | Some issues => score - JS.length issues * 5
      | None => score (* not reached: the guard is falsy on [undefined] *)
      end
    else score in
  JS.Math_max 0 (JS.Math_min 100 score).

Definition extractKeywords (analysisData : APIResponse) : list string :=
  let keywords := JS.new_Set in
  let keywords := JS.opt_forEach (skills analysisData) JS.add keywords in
  let keywords := JS.opt_forEach (industryTerms analysisData) JS.add keywords in
  let keywords := JS.opt_forEach (actionVerbs analysisData) JS.add keywords in
  JS.Array_from keywords.

Definition generateSuggestions (analysisData : APIResponse) : list Suggestion :=
  let suggestions : list Suggestion := [] in
  let suggestions :=
    if negb (hasContactInfo analysisData)
    then JS.push suggestions
           (mkSuggestion
              "Add complete contact information including phone, email, and location"
              error)
    else suggestions in
  let suggestions :=
    if negb (hasWorkExperience analysisData)
    then JS.push suggestions
           (mkSuggestion
              "Include detailed work experience with measurable achievements"
              error)
    else suggestions in
  let suggestions :=
    if negb (hasEducation analysisData)
    then JS.push suggestions
           (mkSuggestion "Add your educational background" error)
    else suggestions in
  let suggestions :=
    if negb (hasSkills analysisData)
    then JS.push suggestions
           (mkSuggestion "List relevant technical and soft skills" error)
    else suggestions in
  let suggestions :=
    JS.opt_forEach (formatIssues analysisData)
      (fun acc issue => JS.push acc (mkSuggestion issue warning)) suggestions in
  let suggestions :=
    JS.opt_forEach (strengths analysisData)
      (fun acc strength => JS.push acc (mkSuggestion strength success)) suggestions in
  suggestions.

Definition validateFormat (analysisData : APIResponse) : FormatResult :=
  {| isValid := negb (JS.truthy (JS.opt_length (formatIssues analysisData)));
     issues := JS.or_else (formatIssues analysisData) [] |}.

(** The object literal that [analyzeResume] returns once both requests
    have resolved (lines 61-66): the operation the specification calls
    [analyze]. *)
Definition analyze (data : APIResponse) : AnalysisResult :=
  {| score := calculateATSScore data;
     keywords := extractKeywords data;
     suggestions := generateSuggestions data;
     format := validateFormat data |}.

(** ** Exceptions, the two remote services and the query function *)

(** The classes of the exceptions that can reach a caller.  The service
    requests may reject with any subclass of [Error] (an Axios error, a
    [TypeError] on a malformed body, ...): [ErrorClass_Other] carries its
    name. *)
Inductive ErrorClass : Type :=
| ErrorClass_Error
| ErrorClass_FileNotSelectedError
| ErrorClass_Other (class_name : string).

Record JsError : Type := mkError {
  err_class : ErrorClass;
  err_name : string;
  err_message : string
}.

(** [new Error(message)]. *)
Definition new_Error (message : string) : JsError :=
  {| err_class := ErrorClass_Error;
     err_name := "Error";
     err_message := message |}.

(** [new FileNotSelectedError(message)]: the subclass of
    [ResumeScanner.tsx], which overrides [name] and pins its prototype. *)
Definition new_FileNotSelectedError (message : string) : JsError :=
  {| err_class := ErrorClass_FileNotSelectedError;
     err_name := "FileNotSelectedError";
     err_message := message |}.

(** [e instanceof FileNotSelectedError]. *)
Definition instanceof_FileNotSelectedError (e : JsError) : bool :=
  match err_class e with
  | ErrorClass_FileNotSelectedError => true
  | _ => false
  end.

(** The uploaded file, as far as the service looks at it. *)
Record File : Type := mkFile {
  file_name : string;
  file_content : string
}.

(** The outcome of an awaited promise. *)
Abbreviation Promise := (sum JsError).

Section Service.

(** [POST /extract-text]: resolves to [data.text] or rejects. *)
Variable post_extract_text : File -> Promise string.

(** [POST /analyze]: resolves to the structured [data] or rejects. *)
Variable post_analyze : string -> Promise APIResponse.

(** [analyzeResume]: the two awaited requests, the four derivations,
    and the handler that replaces whatever was thrown inside the [try]
    block by one fixed [Error].  (The handler also logs the caught
    exception on the console, which no caller observes.) *)
Definition analyzeResume (file : File) : Promise AnalysisResult :=
  catch
    (resumeText <- post_extract_text file ;;
     data <- post_analyze resumeText ;;
     ret (analyze data))%monad
    (fun _ : JsError => raise (new_Error "Failed to analyze resume")).

(** [queryFn] of the [useQuery] call in [ResumeScanner]; [None] is the
    [null] of the component's [file] state. *)
Definition queryFn (file : option File) : Promise AnalysisResult :=
  match file with
  | None => raise (new_FileNotSelectedError "No file selected")
  | Some f => analyzeResume f
  end.

End Service.

(** ** The operations as the specification words them *)

Module Spec.

(** An optional sequence defaults to the empty one. *)
Definition default_empty (a : option (list string)) : list string :=
  match a with
  | Some l => l
  | None => []
  end.

(** Clamping to the closed interval [[lo, hi]]. *)
Definition clamp (lo hi x : Z) : Z :=
  if x <? lo then lo else if hi <? x then hi else x.

(** What a presence flag costs when it is false. *)
Definition deduction (flag : bool) (penalty : Z) : Z :=
  if flag then 0 else penalty.

Definition computeScore (input : APIResponse) : Z :=
  clamp 0 100
    (100
     - deduction (hasContactInfo input) 10
     - deduction (hasWorkExperience input) 15
     - deduction (hasEducation input) 10
     - deduction (hasSkills input) 10
     - 5 * Z.of_nat (List.length (default_empty (formatIssues input)))).

(** Every string of [l] once, at the place of its first occurrence. *)
Fixpoint first_occurrences (l : list string) : list string :=
  match l with
  | [] => []
  | x :: r => x :: filter (fun y => negb (String.eqb y x)) (first_occurrences r)
  end.

(** The position of the first occurrence of [x] in [l], and the length
    of [l] when there is none. *)
Fixpoint index_of (x : string) (l : list string) : nat :=
  match l with
  | [] => O
  | y :: r => if String.eqb x y then O else S (index_of x r)
  end.

Definition extractKeywords (input : APIResponse) : list string :=
  first_occurrences
    (default_empty (skills input)
     ++ default_empty (industryTerms input)
     ++ default_empty (actionVerbs input)).

(** The suggestion of a presence flag: none when the flag is true. *)
Definition missing (flag : bool) (message : string) : list Suggestion :=
  if flag then [] else [mkSuggestion message error].

Definition generateSuggestions (input : APIResponse) : list Suggestion :=
  missing (hasContactInfo input)
    "Add complete contact information including phone, email, and location"
  ++ missing (hasWorkExperience input)
    "Include detailed work experience with measurable achievements"
  ++ missing (hasEducation input) "Add your educational background"
  ++ missing (hasSkills input) "List relevant technical and soft skills"
  ++ map (fun entry => mkSuggestion entry warning)
       (default_empty (formatIssues input))
  ++ map (fun entry => mkSuggestion entry success)
       (default_empty (strengths input)).

Definition count_false (flag : bool) : nat := if flag then O else 1%nat.

(** The number of presence flags that are false. *)
Definition false_flags (input : APIResponse) : nat :=
  (count_false (hasContactInfo input)
   + count_false (hasWorkExperience input)
   + count_false (hasEducation input)
   + count_false (hasSkills input))%nat.

(** "Empty or absent". *)
Definition no_issues (a : option (list string)) : Prop :=
  a = None \/ a = Some [].

(** The place of a severity in the emission order: errors, then
    warnings, then successes. *)
Definition severity_rank (s : Severity) : nat :=
  match s with
  | error => 0%nat
  | warning => 1%nat
  | success => 2%nat
  end.

(** [ahead_of s1 s2]: a suggestion of severity [s1] has to come before
    one of severity [s2]. *)
Definition ahead_of (s1 s2 : Severity) : bool :=
  match s1, s2 with
  | error, warning | error, success | warning, success => true
  | _, _ => false
  end.

End Spec.

(** The rank of [a] is at most the rank of [b]. *)
Definition rank_le (a b : Suggestion) : Prop :=
  (Spec.severity_rank (severity a) <= Spec.severity_rank (severity b))%nat.

(** The same response with its [formatIssues] field replaced. *)
Definition with_formatIssues
    (data : APIResponse) (fi : option (list string)) : APIResponse :=
  {| hasContactInfo := hasContactInfo data;
     hasWorkExperience := hasWorkExperience data;
     hasEducation := hasEducation data;
     hasSkills := hasSkills data;
     formatIssues := fi;
     skills := skills data;
     industryTerms := industryTerms data;
     actionVerbs := actionVerbs data;
     strengths := strengths data |}.

(** ** Inputs of the worked examples *)

(** All four flags false and two format issues (section 8). *)
Definition all_missing_two_issues : APIResponse :=
  mkResponse false false false false (Some ["a"; "b"]) None None None None.

(** The end-to-end input of section 8. *)
Definition end_to_end_input : APIResponse :=
  mkResponse true false true true
    (Some ["Font too small"]) (Some ["Python"]) None None
    (Some ["Strong leadership"]).

(** The three suggestions section 8 lists for [end_to_end_input]. *)
Definition end_to_end_suggestions : list Suggestion :=
  [ mkSuggestion "Include detailed work experience with measurable achievements" error;
    mkSuggestion "Font too small" warning;
    mkSuggestion "Strong leadership" success ].

(** The result section 8 announces for [end_to_end_input]. *)
Definition end_to_end_announced : AnalysisResult :=
  {| score := 75;
     keywords := ["Python"];
     suggestions := end_to_end_suggestions;
     format := {| isValid := false; issues := ["Font too small"] |} |}.

(** A response with many repeated keywords, mixed case and padding. *)
Definition keyword_sample : APIResponse :=
  mkResponse true true true true None
    (Some ["X"; "Python"; "x"]) (Some ["X"; " X"; "Go"]) (Some ["Go"; "Led"; "Python"])
    None.

(** A service that is down, and one that answers [end_to_end_input]. *)
Definition extract_down (_ : File) : Promise string :=
  inl (mkError (ErrorClass_Other "AxiosError") "AxiosError" "Network Error").

Definition extract_up (f : File) : Promise string := inr (file_content f).

Definition analyze_up (_ : string) : Promise APIResponse := inr end_to_end_input.

Definition analyze_unauthorized (_ : string) : Promise APIResponse :=
  inl (mkError (ErrorClass_Other "AxiosError") "AxiosError"
         "Request failed with status code 401").

Definition sample_file : File := mkFile "resume.pdf" "Python developer".

(** ** The component [ResumeScanner] *)

(** The [file] state of the component.  [None] stands for the initial
    [null] and for the [undefined] that [acceptedFiles[0]] yields on an
    empty array: the component only ever tests the state for truthiness,
    and a [File] object is truthy. *)
Definition FileState : Type := option File.

Definition truthy_file (file : FileState) : bool :=
  match file with
  | Some _ => true
  | None => false
  end.

(** [onDrop] of the drop zone: [setFile(acceptedFiles[0])]. *)
Definition onDrop (acceptedFiles : list File) (file : FileState) : FileState :=
  nth_error acceptedFiles 0.

(** [handleFileChange]: [event.target.files] is a [FileList] or [null];
    the state is set only when the list exists and has a first file. *)
Definition handleFileChange
    (files : option (list File)) (file : FileState) : FileState :=
  match files with
  | Some l =>
      match nth_error l 0 with
      | Some f => Some f
      | None => file
      end
  | None => file
  end.

(** [enabled: !!file] of the query. *)
Definition enabled (file : FileState) : bool := negb (negb (truthy_file file)).

(** What the user does to the component. *)
Inductive Event : Type :=
| Drop (acceptedFiles : list File)
| Change (files : option (list File)).

Definition step (file : FileState) (ev : Event) : FileState :=
  match ev with
  | Drop acceptedFiles => onDrop acceptedFiles file
  | Change files => handleFileChange files file
  end.

(** The [file] state after a sequence of events. *)
Definition run (events : list Event) (file : FileState) : FileState :=
  fold_left step events file.

(** The first file an event carries, if any. *)
Definition first_file (ev : Event) : option File :=
  match ev with
  | Drop acceptedFiles => nth_error acceptedFiles 0
  | Change (Some l) => nth_error l 0
  | Change None => None
  end.

(** The events that write the state: every drop, and a change that
    carries a file. *)
Definition writes_state (ev : Event) : bool :=
  match ev with
  | Drop _ => true
  | Change _ => truthy_file (first_file ev)
  end.

Definition is_Change (ev : Event) : bool :=
  match ev with
  | Change _ => true
  | Drop _ => false
  end.

(** [e instanceof Error]: every class of [ErrorClass] is [Error] or one
    of its subclasses. *)
Definition instanceof_Error (e : JsError) : bool :=
  match err_class e with
  | ErrorClass_Error => true
  | ErrorClass_FileNotSelectedError => true
  | ErrorClass_Other _ => true
  end.

(** The text of the [Alert], which is rendered when [error] is set:
    [error instanceof Error ? error.message : 'An error occurred']. *)
Definition alert_text (error : option JsError) : option string :=
  match error with
  | Some e => Some (if instanceof_Error e then err_message e else "An error occurred")
  | None => None
  end.

(** [s1 === s2] on severities. *)
Definition severity_eqb (s1 s2 : Severity) : bool :=
  match s1, s2 with
  | error, error | warning, warning | success, success => true
  | _, _ => false
  end.

Inductive Icon : Type := ErrorIcon | WarningIcon | CheckCircleIcon.

(** The children of the suggestion [List]: an item with its icons and
    its primary text, or a divider. *)
Inductive ListChild : Type :=
| ListItem (icons : list Icon) (primary : string)
| Divider.

(** [{cond && <X />}]: the element when [cond] holds, nothing otherwise. *)
Definition render_when {A : Type} (cond : bool) (x : A) : list A :=
  if cond then [x] else [].

(** [a.map((x, index) => f x index)], counting from [i]. *)
Fixpoint map_from {A B : Type} (f : A -> Z -> B) (i : Z) (a : list A) : list B :=
  match a with
  | [] => []
  | x :: r => f x i :: map_from f (i + 1) r
  end.

Definition map_with_index {A B : Type} (f : A -> Z -> B) (a : list A) : list B :=
  map_from f 0 a.

(** The fragment rendered for one suggestion (lines 190-200); [len] is
    [analysis.suggestions.length]. *)
Definition render_suggestion
    (len : Z) (suggestion : Suggestion) (index : Z) : list ListChild :=
  [ListItem
     (render_when (severity_eqb (severity suggestion) error) ErrorIcon
      ++ render_when (severity_eqb (severity suggestion) warning) WarningIcon
      ++ render_when (severity_eqb (severity suggestion) success) CheckCircleIcon)
     (text suggestion)]
  ++ render_when (index <? len - 1) Divider.

(** The children of the [List]: the fragments, flattened. *)
Definition render_suggestions (suggestions : list Suggestion) : list ListChild :=
  List.concat (map_with_index (render_suggestion (JS.length suggestions)) suggestions).

(** *** Vocabulary of the properties of the component and of the result *)

Definition icon_of (sev : Severity) : Icon :=
  match sev with
  | error => ErrorIcon
  | warning => WarningIcon
  | success => CheckCircleIcon
  end.

(** The items with a divider between each two neighbours. *)
Fixpoint separated (items : list ListChild) : list ListChild :=
  match items with
  | [] => []
  | x :: r =>
      match r with
      | [] => [x]
      | _ :: _ => x :: Divider :: separated r
      end
  end.

(** The suggestions of one severity, and how many there are. *)
Definition of_severity (sev : Severity) (l : list Suggestion) : list Suggestion :=
  filter (fun s => severity_eqb (severity s) sev) l.

Definition count_severity (sev : Severity) (l : list Suggestion) : Z :=
  Z.of_nat (List.length (of_severity sev l)).

(** The points the false presence flags cost together. *)
Definition flag_deductions (d : APIResponse) : Z :=
  Spec.deduction (hasContactInfo d) 10
  + Spec.deduction (hasWorkExperience d) 15
  + Spec.deduction (hasEducation d) 10
  + Spec.deduction (hasSkills d) 10.

(** The number of format issues, none when the field is absent. *)
Definition issue_count (d : APIResponse) : Z :=
  Z.of_nat (List.length (Spec.default_empty (formatIssues d))).

(** [d2] has every section that [d1] has. *)
Definition flags_le (d1 d2 : APIResponse) : Prop :=
  (hasContactInfo d1 = true -> hasContactInfo d2 = true) /\
  (hasWorkExperience d1 = true -> hasWorkExperience d2 = true) /\
  (hasEducation d1 = true -> hasEducation d2 = true) /\
  (hasSkills d1 = true -> hasSkills d2 = true).

(** A response with every section and one format issue, and one that
    lacks the skills section and has two. *)
Definition one_issue : APIResponse :=
  mkResponse true true true true (Some ["Font too small"])
    (Some ["Python"]) None None None.

Definition two_issues_no_skills : APIResponse :=
  mkResponse true true true false (Some ["Tables"; "Two columns"])
    None None (Some ["Led"]) None.

Definition other_file : File := mkFile "cv.docx" "Go developer".

(** * Properties *)

(** ** The score *)

Section Score.

Variable d : APIResponse.

(** The number of format issues, [0] when the field is absent. *)
Let n : Z := Z.of_nat (List.length (Spec.default_empty (formatIssues d))).

(** What the four flag tests and the format test leave in [score]
    before the final clamp. *)
Let raw : Z :=
  100 - Spec.deduction (hasContactInfo d) 10
      - Spec.deduction (hasWorkExperience d) 15
      - Spec.deduction (hasEducation d) 10
      - Spec.deduction (hasSkills d) 10
      - 5 * n.

Lemma issue_count_nonneg : 0 <= n.
Proof. subst n. lia. Qed.

Lemma issue_count_zero : n = 0 <-> Spec.no_issues (formatIssues d).
Proof.
  subst n. unfold Spec.no_issues.
  destruct (formatIssues d) as [[|x l]|]; cbn [Spec.default_empty List.length];
    split; intros H; auto; try lia.
  - destruct H; discriminate.
Qed.

(** The guarded subtraction of lines 81-83 subtracts [5 * n] in every
    case: when the guard is falsy, [n] is [0]. *)
Lemma calculateATSScore_unfold :
  calculateATSScore d = Z.max 0 (Z.min 100 raw).
Proof.
  subst raw n.
  unfold calculateATSScore, JS.Math_max, JS.Math_min,
    JS.truthy, JS.opt_length, JS.length.
  destruct (formatIssues d) as [l|]; cbn [option_map Spec.default_empty].
  - set (k := Z.of_nat (List.length l)).
    destruct (Z.eqb_spec k 0) as [E|E]; cbn [negb];
      destruct (hasContactInfo d), (hasWorkExperience d),
               (hasEducation d), (hasSkills d);
      cbn [negb Spec.deduction]; lia.
  - destruct (hasContactInfo d), (hasWorkExperience d),
             (hasEducation d), (hasSkills d);
      cbn [negb Spec.deduction List.length]; lia.
Qed.

Lemma raw_le_100 : raw <= 100.
Proof.
  pose proof issue_count_nonneg. subst raw.
  destruct (hasContactInfo d), (hasWorkExperience d),
           (hasEducation d), (hasSkills d); cbn [Spec.deduction]; lia.
Qed.

Lemma raw_100 :
  raw = 100 <->
  hasContactInfo d = true /\ hasWorkExperience d = true /\
  hasEducation d = true /\ hasSkills d = true /\ n = 0.
Proof.
  pose proof issue_count_nonneg. subst raw.
  destruct (hasContactInfo d), (hasWorkExperience d),
           (hasEducation d), (hasSkills d); cbn [Spec.deduction];
    intuition (try discriminate; lia).
Qed.

Lemma clamp_max_min (x : Z) : Spec.clamp 0 100 x = Z.max 0 (Z.min 100 x).
Proof.
  unfold Spec.clamp.
  destruct (Z.ltb_spec x 0); [lia|].
  destruct (Z.ltb_spec 100 x); lia.
Qed.

End Score.

(** C1. For every input, [calculateATSScore] returns 100 minus 10, 15,
    10 and 10 for a false [hasContactInfo], [hasWorkExperience],
    [hasEducation] and [hasSkills], minus 5 per entry of [formatIssues]
    (none when absent), clamped to [[0,100]]; with the four flags false and
    two format issues, whatever the other fields, the result is 45. *)
Theorem calculateATSScore_spec :
  (forall d : APIResponse, calculateATSScore d = Spec.computeScore d) /\
  (forall (a b : string) (sk it av st : option (list string)),
     calculateATSScore
       (mkResponse false false false false (Some [a; b]) sk it av st) = 45) /\
  calculateATSScore all_missing_two_issues = 45.
Proof.
  split; [|split].
  - intros d. rewrite calculateATSScore_unfold. unfold Spec.computeScore.
    now rewrite clamp_max_min.
  - reflexivity.
  - reflexivity.
Qed.

(** C5. For every input the score lies in the closed interval [[0,100]],
    however many format issues there are and whatever the flags. *)
Theorem calculateATSScore_range (d : APIResponse) :
  0 <= calculateATSScore d <= 100.
Proof.
  rewrite calculateATSScore_unfold. lia.
Qed.

(** C10. The score is exactly 100 if and only if the four presence flags
    are true and [formatIssues] is empty or absent: clamping never brings
    a deducted score back to 100. *)
Theorem calculateATSScore_100_iff (d : APIResponse) :
  calculateATSScore d = 100 <->
  hasContactInfo d = true /\ hasWorkExperience d = true /\
  hasEducation d = true /\ hasSkills d = true /\
  Spec.no_issues (formatIssues d).
Proof.
  rewrite calculateATSScore_unfold, <- issue_count_zero, <- raw_100.
  pose proof (raw_le_100 d). lia.
Qed.

(** ** Suggestions *)

Lemma forEach_push_map {A B : Type} (f : A -> B) (l : list A) (acc : list B) :
  JS.forEach l (fun acc x => JS.push acc (f x)) acc = acc ++ map f l.
Proof.
  unfold JS.forEach, JS.push. revert acc.
  induction l as [|x l IH]; intros acc; cbn [fold_left map].
  - now rewrite app_nil_r.
  - rewrite IH, <- app_assoc. reflexivity.
Qed.

Lemma opt_forEach_push_map (f : string -> Suggestion)
    (a : option (list string)) (acc : list Suggestion) :
  JS.opt_forEach a (fun acc x => JS.push acc (f x)) acc
  = acc ++ map f (Spec.default_empty a).
Proof.
  destruct a as [l|]; cbn [JS.opt_forEach Spec.default_empty map].
  - apply forEach_push_map.
  - now rewrite app_nil_r.
Qed.

(** A guarded [push] appends the suggestion of the flag, if any. *)
Lemma guarded_push (flag : bool) (message : string) (acc : list Suggestion) :
  (if negb flag then JS.push acc (mkSuggestion message error) else acc)
  = acc ++ Spec.missing flag message.
Proof.
  destruct flag; cbn [negb Spec.missing]; [now rewrite app_nil_r | reflexivity].
Qed.

Lemma generateSuggestions_eq (d : APIResponse) :
  generateSuggestions d = Spec.generateSuggestions d.
Proof.
  unfold generateSuggestions, Spec.generateSuggestions.
  rewrite !opt_forEach_push_map, !guarded_push.
  cbn [app]. now rewrite <- !app_assoc.
Qed.

Lemma missing_length (flag : bool) (message : string) :
  List.length (Spec.missing flag message) = Spec.count_false flag.
Proof. now destruct flag. Qed.

(** C3. [generateSuggestions] returns, in this order: the fixed
    error-severity suggestion of each false presence flag (contact, work
    experience, education, skills), a warning-severity suggestion per
    entry of [formatIssues] in input order, a success-severity suggestion
    per entry of [strengths] in input order; so its length is the number
    of false flags plus the lengths of [formatIssues] and [strengths]. *)
Theorem generateSuggestions_spec (d : APIResponse) :
  generateSuggestions d = Spec.generateSuggestions d /\
  List.length (generateSuggestions d)
  = (Spec.false_flags d
     + List.length (Spec.default_empty (formatIssues d))
     + List.length (Spec.default_empty (strengths d)))%nat.
Proof.
  split; [apply generateSuggestions_eq|].
  rewrite generateSuggestions_eq.
  unfold Spec.generateSuggestions, Spec.false_flags.
  rewrite !length_app, !length_map, !missing_length. lia.
Qed.

(** *** Grouping by severity *)

Lemma ahead_of_rank (s1 s2 : Severity) :
  Spec.ahead_of s1 s2 = true <->
  (Spec.severity_rank s1 < Spec.severity_rank s2)%nat.
Proof.
  destruct s1, s2; cbn; split; intros H; try reflexivity;
    try discriminate; lia.
Qed.

(** A block of one rank in front of a sorted list of ranks at least as
    high is sorted. *)
Lemma sorted_block (k : nat) (l rest : list Suggestion) :
  Forall (fun s => Spec.severity_rank (severity s) = k) l ->
  Forall (fun s => (k <= Spec.severity_rank (severity s))%nat) rest ->
  StronglySorted rank_le rest ->
  StronglySorted rank_le (l ++ rest).
Proof.
  intros Hl Hrest Hsorted.
  induction Hl as [|x l Hx Hl IH]; cbn [app]; [assumption|].
  constructor; [exact IH|].
  apply Forall_app; split.
  - eapply Forall_impl; [|exact Hl].
    intros y Hy. unfold rank_le. cbn beta in *. lia.
  - eapply Forall_impl; [|exact Hrest].
    intros y Hy. unfold rank_le. cbn beta in *. lia.
Qed.

Lemma missing_rank (flag : bool) (message : string) :
  Forall (fun s => Spec.severity_rank (severity s) = 0%nat)
    (Spec.missing flag message).
Proof. destruct flag; repeat constructor. Qed.

Lemma map_rank (sev : Severity) (l : list string) :
  Forall (fun s => Spec.severity_rank (severity s) = Spec.severity_rank sev)
    (map (fun entry => mkSuggestion entry sev) l).
Proof. induction l; constructor; auto. Qed.

Lemma generateSuggestions_sorted (d : APIResponse) :
  StronglySorted rank_le (generateSuggestions d).
Proof.
  rewrite generateSuggestions_eq. unfold Spec.generateSuggestions.
  repeat (apply (sorted_block 0);
          [apply missing_rank | apply Forall_forall; intros; lia |]).
  apply (sorted_block 1); [apply (map_rank warning) | |].
  - eapply Forall_impl; [|apply (map_rank success)].
    cbn. intros s ->. lia.
  - rewrite <- app_nil_r.
    apply (sorted_block 2); [apply (map_rank success) | constructor | constructor].
Qed.

(** In a strongly sorted list, an earlier element is related to every
    later one. *)
Lemma StronglySorted_nth_error {A : Type} (R : A -> A -> Prop) (l : list A) :
  StronglySorted R l ->
  forall (i j : nat) (a b : A),
    (i < j)%nat -> nth_error l i = Some a -> nth_error l j = Some b -> R a b.
Proof.
  induction 1 as [|x l Hs IH Hx]; intros i j a b Hij Ha Hb.
  - destruct i; discriminate.
  - destruct j as [|j]; [lia|]. cbn [nth_error] in Hb.
    destruct i as [|i]; cbn [nth_error] in Ha.
    + injection Ha as <-.
      rewrite Forall_forall in Hx. apply Hx.
      eapply nth_error_In; eassumption.
    + apply (IH i j); [lia | assumption | assumption].
Qed.

(** C9. The output of [generateSuggestions] is grouped by severity: a
    suggestion of severity error stands before every one of severity
    warning or success, and one of severity warning before every one of
    severity success. *)
Theorem generateSuggestions_grouped
    (d : APIResponse) (i j : nat) (a b : Suggestion) :
  nth_error (generateSuggestions d) i = Some a ->
  nth_error (generateSuggestions d) j = Some b ->
  Spec.ahead_of (severity a) (severity b) = true ->
  (i < j)%nat.
Proof.
  intros Ha Hb Hab. apply ahead_of_rank in Hab.
  destruct (Nat.lt_trichotomy i j) as [Hlt|[Heq|Hgt]]; [assumption| |].
  - subst j. rewrite Ha in Hb. injection Hb as <-. lia.
  - pose proof (StronglySorted_nth_error rank_le _
                  (generateSuggestions_sorted d) j i b a Hgt Hb Ha) as Hle.
    unfold rank_le in Hle. lia.
Qed.

Lemma generateSuggestions_grouped_witness :
  nth_error (generateSuggestions end_to_end_input) 0
  = Some (mkSuggestion
            "Include detailed work experience with measurable achievements"
            error) /\
  nth_error (generateSuggestions end_to_end_input) 2
  = Some (mkSuggestion "Strong leadership" success) /\
  (0 < 2)%nat.
Proof.
  split; [reflexivity|]. split; [reflexivity|].
  apply (generateSuggestions_grouped end_to_end_input 0 2
           (mkSuggestion
              "Include detailed work experience with measurable achievements"
              error)
           (mkSuggestion "Strong leadership" success));
    reflexivity.
Defined.

(** ** Format validation *)

(** C4. [isValid] is true exactly when [formatIssues] is empty or absent,
    and [issues] is [formatIssues] itself, the empty sequence when the
    field is absent. *)
Theorem validateFormat_spec (d : APIResponse) :
  (isValid (validateFormat d) = true <-> Spec.no_issues (formatIssues d)) /\
  issues (validateFormat d)
  = match formatIssues d with
    | Some l => l
    | None => []
    end.
Proof.
  unfold validateFormat, Spec.no_issues; cbn [isValid issues].
  destruct (formatIssues d) as [[|x l]|]; cbn; (split; [split|reflexivity]);
    intros H; auto; try discriminate.
  destruct H; discriminate.
Qed.

(** ** An absent and an empty [formatIssues] *)

(** Every response is its own update at the field it already has, so
    the updates below range over all responses. *)
Lemma with_formatIssues_same (d : APIResponse) :
  with_formatIssues d (formatIssues d) = d.
Proof. now destruct d. Qed.

(** C7. Whether [formatIssues] is absent or the empty sequence makes no
    difference: the score, the suggestions, the format validation and the
    whole result of [analyze] are the same. *)
Theorem formatIssues_absent_or_empty (d : APIResponse) :
  calculateATSScore (with_formatIssues d None)
  = calculateATSScore (with_formatIssues d (Some [])) /\
  generateSuggestions (with_formatIssues d None)
  = generateSuggestions (with_formatIssues d (Some [])) /\
  validateFormat (with_formatIssues d None)
  = validateFormat (with_formatIssues d (Some [])) /\
  analyze (with_formatIssues d None) = analyze (with_formatIssues d (Some [])).
Proof.
  repeat split; reflexivity.
Qed.

(** ** Keywords *)

Section Keywords.

Implicit Types (s l : list string) (x y : string).

Lemma has_In s x : JS.has s x = true <-> In x s.
Proof.
  unfold JS.has. rewrite existsb_exists. split.
  - intros (y & Hy & E). apply String.eqb_eq in E. now subst.
  - intros H. exists x. split; [assumption | apply String.eqb_refl].
Qed.

Lemma has_app s1 s2 x : JS.has (s1 ++ s2) x = JS.has s1 x || JS.has s2 x.
Proof. apply existsb_app. Qed.

Lemma filter_twice (f g : string -> bool) l :
  filter f (filter g l) = filter (fun y => g y && f y) l.
Proof.
  induction l as [|a l IH]; cbn [filter]; [reflexivity|].
  destruct (g a); cbn [filter andb]; [destruct (f a)|]; now rewrite IH.
Qed.

(** Adding the strings of [l] one by one to the set [s] appends, in
    the order of their first occurrence, those not yet in [s]. *)
Lemma forEach_add l : forall s,
  JS.forEach l JS.add s
  = s ++ filter (fun y => negb (JS.has s y)) (Spec.first_occurrences l).
Proof.
  induction l as [|x r IH]; intros s.
  - cbn. now rewrite app_nil_r.
  - change (JS.forEach (x :: r) JS.add s)
      with (JS.forEach r JS.add (JS.add s x)).
    rewrite IH. unfold JS.add.
    cbn [Spec.first_occurrences filter].
    destruct (JS.has s x) eqn:E; cbn [negb].
    + f_equal. rewrite filter_twice. apply filter_ext.
      intros y. destruct (String.eqb_spec y x) as [->|_]; cbn [negb andb].
      * now rewrite E.
      * reflexivity.
    + rewrite <- app_assoc. cbn [app]. do 2 f_equal.
      rewrite filter_twice. apply filter_ext.
      intros y. rewrite has_app. cbn [JS.has existsb].
      rewrite orb_false_r.
      destruct (JS.has s y), (String.eqb y x); reflexivity.
Qed.

Lemma opt_forEach_add (a : option (list string)) s :
  JS.opt_forEach a JS.add s = JS.forEach (Spec.default_empty a) JS.add s.
Proof. now destruct a. Qed.

Lemma forEach_app l1 l2 s :
  JS.forEach (l1 ++ l2) JS.add s
  = JS.forEach l2 JS.add (JS.forEach l1 JS.add s).
Proof. apply fold_left_app. Qed.

Lemma first_occurrences_In l x : In x (Spec.first_occurrences l) <-> In x l.
Proof.
  induction l as [|a r IH]; cbn [Spec.first_occurrences In]; [tauto|].
  rewrite filter_In, IH.
  destruct (String.eqb_spec x a) as [->|N]; cbn [negb]; intuition congruence.
Qed.

Lemma first_occurrences_NoDup l : NoDup (Spec.first_occurrences l).
Proof.
  induction l as [|a r IH]; cbn [Spec.first_occurrences]; constructor.
  - rewrite filter_In, String.eqb_refl. cbn. intros [_ H]. discriminate.
  - now apply NoDup_filter.
Qed.

(** Dropping the occurrences of [a] leaves the strings other than [a]
    in the same relative order. *)
Lemma index_of_filter a x y l :
  x <> a -> y <> a ->
  let l' := filter (fun z => negb (String.eqb z a)) l in
  (Spec.index_of x l' < Spec.index_of y l')%nat <->
  (Spec.index_of x l < Spec.index_of y l)%nat.
Proof.
  intros Hx Hy. cbv zeta.
  induction l as [|b r IH]; cbn [filter Spec.index_of]; [reflexivity|].
  destruct (String.eqb_spec b a) as [->|Hb]; cbn [negb Spec.index_of].
  - destruct (String.eqb_spec x a); [contradiction|].
    destruct (String.eqb_spec y a); [contradiction|].
    rewrite IH. lia.
  - destruct (String.eqb_spec x b), (String.eqb_spec y b);
      rewrite ?IH; lia.
Qed.

Lemma first_occurrences_order l x y :
  (Spec.index_of x (Spec.first_occurrences l)
   < Spec.index_of y (Spec.first_occurrences l))%nat <->
  (Spec.index_of x l < Spec.index_of y l)%nat.
Proof.
  induction l as [|a r IH]; cbn [Spec.first_occurrences Spec.index_of];
    [reflexivity|].
  destruct (String.eqb_spec x a) as [->|Hx], (String.eqb_spec y a) as [->|Hy];
    try lia.
  pose proof (index_of_filter a x y (Spec.first_occurrences r) Hx Hy) as F.
  cbv zeta in F. lia.
Qed.

Lemma extractKeywords_eq (d : APIResponse) :
  extractKeywords d = Spec.extractKeywords d.
Proof.
  unfold extractKeywords, Spec.extractKeywords, JS.Array_from, JS.new_Set.
  rewrite !opt_forEach_add, <- !forEach_app, forEach_add.
  cbn [app JS.has existsb negb].
  apply forallb_filter_id, forallb_forall. reflexivity.
Qed.

End Keywords.

(** C2. [extractKeywords] returns the strings of [skills],
    [industryTerms] and [actionVerbs], each exactly once (strings being
    compared character for character), in the order of their first
    occurrence in [skills ++ industryTerms ++ actionVerbs]. *)
Theorem extractKeywords_spec (d : APIResponse) :
  let all :=
    Spec.default_empty (skills d)
    ++ Spec.default_empty (industryTerms d)
    ++ Spec.default_empty (actionVerbs d) in
  extractKeywords d = Spec.first_occurrences all /\
  NoDup (extractKeywords d) /\
  (forall x : string,
     In x (extractKeywords d) <->
     In x (Spec.default_empty (skills d)) \/
     In x (Spec.default_empty (industryTerms d)) \/
     In x (Spec.default_empty (actionVerbs d))) /\
  (forall x y : string,
     (Spec.index_of x (extractKeywords d)
      < Spec.index_of y (extractKeywords d))%nat <->
     (Spec.index_of x all < Spec.index_of y all)%nat).
Proof.
  cbv zeta. rewrite extractKeywords_eq. unfold Spec.extractKeywords.
  split; [reflexivity|]. split; [apply first_occurrences_NoDup|]. split.
  - intros x. now rewrite first_occurrences_In, !in_app_iff.
  - intros x y. apply first_occurrences_order.
Qed.

(** ** The composed result *)

Section Outcome.

Variable post_extract_text : File -> Promise string.
Variable post_analyze : string -> Promise APIResponse.

(** When both requests resolve, [analyzeResume] resolves to [analyze]
    of the structured response. *)
Lemma analyzeResume_resolves (f : File) (resumeText : string) (data : APIResponse) :
  post_extract_text f = inr resumeText ->
  post_analyze resumeText = inr data ->
  analyzeResume post_extract_text post_analyze f = inr (analyze data).
Proof.
  intros H1 H2. unfold analyzeResume. cbn. rewrite H1, H2. reflexivity.
Qed.

(** Whatever is thrown inside the [try] block, the caller receives the
    one [Error] of the handler. *)
Lemma analyzeResume_rejects (f : File) (e : JsError) :
  analyzeResume post_extract_text post_analyze f = inl e ->
  e = new_Error "Failed to analyze resume".
Proof.
  unfold analyzeResume. cbn.
  destruct (post_extract_text f) as [e1|resumeText]; cbn.
  - now intros [= <-].
  - destruct (post_analyze resumeText) as [e2|data]; cbn.
    + now intros [= <-].
    + discriminate.
Qed.



End Outcome.

(** C6, as the specification states it, fails on its own end-to-end
    example: one missing section (work experience, 15) and one format
    issue (5) leave a score of 80, not the announced 75. *)
Lemma analyze_end_to_end_not_announced :
  score (analyze end_to_end_input) = 80 /\
  score (analyze end_to_end_input) <> 75 /\
  analyze end_to_end_input <> end_to_end_announced.
Proof.
  split; [reflexivity|]. split; intros H; discriminate H.
Qed.

(** C6, amended. [analyze] returns the record of the four derivations
    of its input, equal inputs give equal results, and on the end-to-end
    input it returns score 80, the keyword Python, the three listed
    suggestions in their order and an invalid format with the one issue. *)
Theorem analyze_spec :
  (forall d : APIResponse,
     analyze d
     = {| score := calculateATSScore d;
          keywords := extractKeywords d;
          suggestions := generateSuggestions d;
          format := validateFormat d |}) /\
  (forall d1 d2 : APIResponse, d1 = d2 -> analyze d1 = analyze d2) /\
  analyze end_to_end_input
  = {| score := 80;
       keywords := ["Python"];
       suggestions := end_to_end_suggestions;
       format := {| isValid := false; issues := ["Font too small"] |} |}.
Proof.
  split; [reflexivity|]. split; [|reflexivity].
  intros d1 d2 ->. reflexivity.
Qed.

Lemma analyze_spec_witness :
  end_to_end_input = end_to_end_input /\
  analyze end_to_end_input = analyze end_to_end_input.
Proof.
  split; [reflexivity|].
  apply (proj1 (proj2 analyze_spec) end_to_end_input end_to_end_input).
  reflexivity.
Defined.

(** ** No file selected *)

(** C8. Without a file the query function fails with a
    [FileNotSelectedError]; with a file, any failure of extraction or
    analysis reaches the caller as a plain [Error].  The two differ in
    class, in name and in message, so a caller can tell them apart. *)
Theorem no_file_error_is_distinct
    (post_extract_text : File -> Promise string)
    (post_analyze : string -> Promise APIResponse)
    (f : File) (e_failed : JsError) :
  queryFn post_extract_text post_analyze (Some f) = inl e_failed ->
  exists e_no_file : JsError,
    queryFn post_extract_text post_analyze None = inl e_no_file /\
    instanceof_FileNotSelectedError e_no_file = true /\
    instanceof_FileNotSelectedError e_failed = false /\
    err_name e_no_file <> err_name e_failed /\
    err_message e_no_file <> err_message e_failed /\
    e_no_file <> e_failed.
Proof.
  cbn [queryFn]. intros H. apply analyzeResume_rejects in H. subst e_failed.
  exists (new_FileNotSelectedError "No file selected").
  repeat split; try reflexivity; intros E; discriminate E.
Qed.

Lemma no_file_error_is_distinct_witness :
  queryFn extract_down analyze_up (Some sample_file)
  = inl (new_Error "Failed to analyze resume") /\
  exists e_no_file : JsError,
    queryFn extract_down analyze_up None = inl e_no_file /\
    instanceof_FileNotSelectedError e_no_file = true /\
    instanceof_FileNotSelectedError (new_Error "Failed to analyze resume")
    = false /\
    err_name e_no_file <> err_name (new_Error "Failed to analyze resume") /\
    err_message e_no_file
    <> err_message (new_Error "Failed to analyze resume") /\
    e_no_file <> new_Error "Failed to analyze resume".
Proof.
  split; [reflexivity|].
  apply (no_file_error_is_distinct extract_down analyze_up sample_file).
  reflexivity.
Defined.

(** ** Worked runs *)

(** Keywords are compared as they are: case and padding matter. *)
Example extractKeywords_sample :
  extractKeywords keyword_sample = ["X"; "Python"; "x"; " X"; "Go"; "Led"].
Proof. reflexivity. Qed.

Example calculateATSScore_one_flag :
  calculateATSScore
    (mkResponse false true true true (Some []) None None None None) = 90.
Proof. reflexivity. Qed.

Example queryFn_resolves :
  queryFn extract_up analyze_up (Some sample_file)
  = inr (analyze end_to_end_input).
Proof. reflexivity. Qed.

Example queryFn_unauthorized :
  queryFn extract_up analyze_unauthorized (Some sample_file)
  = inl (new_Error "Failed to analyze resume").
Proof. reflexivity. Qed.

(** * Further properties of the service *)

(** ** More on the score *)

Lemma flag_deductions_range (d : APIResponse) : 0 <= flag_deductions d <= 45.
Proof.
  unfold flag_deductions.
  destruct (hasContactInfo d), (hasWorkExperience d),
           (hasEducation d), (hasSkills d); cbn [Spec.deduction]; lia.
Qed.

Lemma flag_deductions_fives (d : APIResponse) :
  exists k : Z, flag_deductions d = 5 * k.
Proof.
  unfold flag_deductions.
  destruct (hasContactInfo d), (hasWorkExperience d),
           (hasEducation d), (hasSkills d); cbn [Spec.deduction];
    [exists 0|exists 2|exists 2|exists 4|exists 3|exists 5|exists 5|exists 7
    |exists 2|exists 4|exists 4|exists 6|exists 5|exists 7|exists 7|exists 9];
    reflexivity.
Qed.

Lemma issue_count_pos (d : APIResponse) : 0 <= issue_count d.
Proof. unfold issue_count. lia. Qed.

(** The score in closed form: the upper clamp never acts. *)
Lemma calculateATSScore_closed (d : APIResponse) :
  calculateATSScore d = Z.max 0 (100 - flag_deductions d - 5 * issue_count d).
Proof.
  rewrite calculateATSScore_unfold.
  pose proof (flag_deductions_range d). pose proof (issue_count_pos d).
  unfold flag_deductions, issue_count in *. lia.
Qed.

Lemma flags_le_deductions (d1 d2 : APIResponse) :
  flags_le d1 d2 -> flag_deductions d2 <= flag_deductions d1.
Proof.
  unfold flags_le, flag_deductions.
  destruct (hasContactInfo d1), (hasWorkExperience d1),
           (hasEducation d1), (hasSkills d1);
    intros (H1 & H2 & H3 & H4);
    rewrite ?(H1 eq_refl), ?(H2 eq_refl), ?(H3 eq_refl), ?(H4 eq_refl);
    cbn [Spec.deduction];
    destruct (hasContactInfo d2), (hasWorkExperience d2),
             (hasEducation d2), (hasSkills d2); cbn [Spec.deduction]; lia.
Qed.

(** X1. The score is monotone: a response that has every section another
    one has, and no more format issues, scores at least as high. *)
Theorem calculateATSScore_monotone (d1 d2 : APIResponse) :
  flags_le d1 d2 ->
  issue_count d2 <= issue_count d1 ->
  calculateATSScore d1 <= calculateATSScore d2.
Proof.
  intros Hf Hn. apply flags_le_deductions in Hf.
  rewrite !calculateATSScore_closed. lia.
Qed.

Lemma calculateATSScore_monotone_witness :
  flags_le two_issues_no_skills one_issue /\
  issue_count one_issue <= issue_count two_issues_no_skills /\
  calculateATSScore two_issues_no_skills <= calculateATSScore one_issue.
Proof.
  assert (Hf : flags_le two_issues_no_skills one_issue)
    by (cbv; repeat split; intros; reflexivity).
  assert (Hn : issue_count one_issue <= issue_count two_issues_no_skills)
    by (vm_compute; intros H; discriminate H).
  split; [exact Hf|]. split; [exact Hn|].
  exact (calculateATSScore_monotone two_issues_no_skills one_issue Hf Hn).
Defined.

(** X2. The score depends on the four presence flags and on the number
    of format issues only: neither the texts of the issues nor the
    skills, terms, verbs and strengths change it. *)
Theorem calculateATSScore_depends_on (d1 d2 : APIResponse) :
  hasContactInfo d1 = hasContactInfo d2 ->
  hasWorkExperience d1 = hasWorkExperience d2 ->
  hasEducation d1 = hasEducation d2 ->
  hasSkills d1 = hasSkills d2 ->
  issue_count d1 = issue_count d2 ->
  calculateATSScore d1 = calculateATSScore d2.
Proof.
  intros H1 H2 H3 H4 Hn. rewrite !calculateATSScore_closed.
  unfold flag_deductions. now rewrite H1, H2, H3, H4, Hn.
Qed.

Lemma calculateATSScore_depends_on_witness :
  calculateATSScore one_issue
  = calculateATSScore
      (mkResponse true true true true (Some ["Margins"]) None
         (Some ["Agile"]) None (Some ["Clear layout"])).
Proof.
  apply (calculateATSScore_depends_on one_issue
           (mkResponse true true true true (Some ["Margins"]) None
              (Some ["Agile"]) None (Some ["Clear layout"])));
    reflexivity.
Defined.

(** X3. One more format issue costs five points, until the score has
    reached 0, where it stays. *)
Theorem calculateATSScore_one_more_issue (d : APIResponse) (issue : string) :
  calculateATSScore
    (with_formatIssues d
       (Some (Spec.default_empty (formatIssues d) ++ [issue])))
  = Z.max 0 (calculateATSScore d - 5).
Proof.
  rewrite !calculateATSScore_closed.
  unfold flag_deductions, issue_count, with_formatIssues.
  cbn [hasContactInfo hasWorkExperience hasEducation hasSkills formatIssues
       Spec.default_empty].
  rewrite length_app, Nat2Z.inj_add. cbn [List.length]. lia.
Qed.

(** X4. The score is a multiple of five: one of 0, 5, ..., 100. *)
Theorem calculateATSScore_multiple_of_5 (d : APIResponse) :
  exists k : Z, 0 <= k <= 20 /\ calculateATSScore d = 5 * k.
Proof.
  rewrite calculateATSScore_closed.
  destruct (flag_deductions_fives d) as [k Hk].
  pose proof (flag_deductions_range d). pose proof (issue_count_pos d).
  exists (Z.max 0 (20 - k - issue_count d)). lia.
Qed.

(** X5. The score is 0 exactly when the deductions add up to 100 or
    more. *)
Theorem calculateATSScore_zero_iff (d : APIResponse) :
  calculateATSScore d = 0 <-> 100 <= flag_deductions d + 5 * issue_count d.
Proof.
  rewrite calculateATSScore_closed. lia.
Qed.

(** X6. The flags cost 45 points at most, so with [n] format issues the
    score lies between [max 0 (55 - 5 n)] and [max 0 (100 - 5 n)]: it is
    positive up to 10 issues and 0 from 20 issues on. *)
Theorem calculateATSScore_bounds (d : APIResponse) :
  Z.max 0 (55 - 5 * issue_count d) <= calculateATSScore d
  <= Z.max 0 (100 - 5 * issue_count d).
Proof.
  rewrite calculateATSScore_closed.
  pose proof (flag_deductions_range d). lia.
Qed.

(** ** More on the keywords *)

Section MoreKeywords.

Implicit Types (a b l : list string) (x y : string).

Lemma first_occurrences_length l :
  (List.length (Spec.first_occurrences l) <= List.length l)%nat.
Proof.
  induction l as [|x r IH]; cbn [Spec.first_occurrences List.length]; [lia|].
  pose proof (filter_length_le (fun y => negb (String.eqb y x))
                (Spec.first_occurrences r)).
  lia.
Qed.

Lemma filter_other x l :
  ~ In x l -> filter (fun y => negb (String.eqb y x)) l = l.
Proof.
  intros H. apply forallb_filter_id, forallb_forall.
  intros y Hy. destruct (String.eqb_spec y x) as [->|_]; [contradiction|reflexivity].
Qed.

(** A list is left as it is exactly when it has no repetition. *)
Lemma first_occurrences_fixed l : Spec.first_occurrences l = l <-> NoDup l.
Proof.
  split.
  - intros <-. apply first_occurrences_NoDup.
  - induction 1 as [|x r Hx Hr IH]; cbn [Spec.first_occurrences]; [reflexivity|].
    rewrite IH. now rewrite filter_other.
Qed.

Lemma has_first_occurrences a y :
  JS.has (Spec.first_occurrences a) y = JS.has a y.
Proof.
  apply eq_true_iff_eq. now rewrite !has_In, first_occurrences_In.
Qed.

(** De-duplicating a concatenation: the first part, then what the
    second part adds to it. *)
Lemma first_occurrences_app a b :
  Spec.first_occurrences (a ++ b)
  = Spec.first_occurrences a
    ++ filter (fun y => negb (JS.has a y)) (Spec.first_occurrences b).
Proof.
  induction a as [|x a IH]; cbn [app Spec.first_occurrences].
  - cbn. symmetry. apply forallb_filter_id, forallb_forall. reflexivity.
  - rewrite IH, filter_app, filter_twice. cbn [app]. do 2 f_equal.
    apply filter_ext. intros y. cbn [JS.has existsb].
    fold (JS.has a y).
    destruct (JS.has a y), (String.eqb y x); reflexivity.
Qed.

End MoreKeywords.

(** X7. Extraction is idempotent: a response whose skills are the
    keywords of another one, with no terms and no verbs, has the same
    keywords in the same order. *)
Theorem extractKeywords_idempotent
    (d : APIResponse) (hc hw he hs : bool) (fi st : option (list string)) :
  extractKeywords
    (mkResponse hc hw he hs fi (Some (extractKeywords d)) None None st)
  = extractKeywords d.
Proof.
  rewrite (extractKeywords_eq (mkResponse _ _ _ _ _ _ _ _ _)).
  unfold Spec.extractKeywords at 1.
  cbn [skills industryTerms actionVerbs Spec.default_empty].
  rewrite !app_nil_r. apply first_occurrences_fixed.
  rewrite extractKeywords_eq. apply first_occurrences_NoDup.
Qed.

(** X8. There are never more keywords than strings in the three
    sequences, and the keywords are the plain concatenation
    [skills ++ industryTerms ++ actionVerbs] exactly when no string occurs
    twice in it. *)
Theorem extractKeywords_drops_only_repeats (d : APIResponse) :
  let all :=
    Spec.default_empty (skills d)
    ++ Spec.default_empty (industryTerms d)
    ++ Spec.default_empty (actionVerbs d) in
  (List.length (extractKeywords d) <= List.length all)%nat /\
  (extractKeywords d = all <-> NoDup all).
Proof.
  cbv zeta. rewrite extractKeywords_eq. unfold Spec.extractKeywords.
  split; [apply first_occurrences_length | apply first_occurrences_fixed].
Qed.

(** X9. The keywords of the skills come first, in their order; the
    terms and verbs only add, behind them, the keywords that are not
    among the skills. *)
Theorem extractKeywords_skills_first
    (hc hw he hs : bool) (fi sk it av st : option (list string)) :
  let from_skills :=
    extractKeywords (mkResponse hc hw he hs fi sk None None st) in
  let from_others :=
    extractKeywords (mkResponse hc hw he hs fi None it av st) in
  extractKeywords (mkResponse hc hw he hs fi sk it av st)
  = from_skills
    ++ filter (fun y => negb (JS.has from_skills y)) from_others.
Proof.
  cbv zeta. rewrite !extractKeywords_eq. unfold Spec.extractKeywords.
  cbn [skills industryTerms actionVerbs Spec.default_empty app].
  rewrite !app_nil_r, first_occurrences_app. f_equal.
  apply filter_ext. intros y. now rewrite has_first_occurrences.
Qed.

(** ** Absent optional fields *)

(** X10. For each of the five optional fields, an absent field and an
    empty sequence give the same result: [analyze] only sees the
    sequences, with the empty one in place of a missing one. *)
Theorem analyze_absent_as_empty (d : APIResponse) :
  analyze d
  = analyze
      (mkResponse (hasContactInfo d) (hasWorkExperience d)
         (hasEducation d) (hasSkills d)
         (Some (Spec.default_empty (formatIssues d)))
         (Some (Spec.default_empty (skills d)))
         (Some (Spec.default_empty (industryTerms d)))
         (Some (Spec.default_empty (actionVerbs d)))
         (Some (Spec.default_empty (strengths d)))).
Proof.
  destruct d as [hc hw he hs [fi|] [sk|] [it|] [av|] [st|]]; reflexivity.
Qed.

(** ** The suggestions, severity by severity *)

Lemma of_severity_app (sev : Severity) (l1 l2 : list Suggestion) :
  of_severity sev (l1 ++ l2) = of_severity sev l1 ++ of_severity sev l2.
Proof. apply filter_app. Qed.

Lemma of_severity_missing (sev : Severity) (flag : bool) (message : string) :
  of_severity sev (Spec.missing flag message)
  = if severity_eqb error sev then Spec.missing flag message else [].
Proof. destruct flag, sev; reflexivity. Qed.

Lemma of_severity_map (sev tag : Severity) (l : list string) :
  of_severity sev (map (fun entry => mkSuggestion entry tag) l)
  = if severity_eqb tag sev then map (fun entry => mkSuggestion entry tag) l else [].
Proof.
  unfold of_severity.
  induction l as [|x l IH]; cbn [map filter severity];
    [now destruct (severity_eqb tag sev)|].
  rewrite IH. now destruct (severity_eqb tag sev).
Qed.

Lemma map_text_tagged (tag : Severity) (l : list string) :
  map text (map (fun entry => mkSuggestion entry tag) l) = l.
Proof. rewrite map_map. cbn [text]. apply map_id. Qed.

(** The suggestions of each severity, read off the closed form. *)
Lemma generateSuggestions_by_severity (d : APIResponse) :
  List.length (of_severity error (generateSuggestions d)) = Spec.false_flags d /\
  of_severity warning (generateSuggestions d)
  = map (fun entry => mkSuggestion entry warning)
      (Spec.default_empty (formatIssues d)) /\
  of_severity success (generateSuggestions d)
  = map (fun entry => mkSuggestion entry success)
      (Spec.default_empty (strengths d)).
Proof.
  rewrite generateSuggestions_eq. unfold Spec.generateSuggestions.
  rewrite !of_severity_app, !of_severity_missing, !of_severity_map.
  cbn [severity_eqb app]. rewrite !app_nil_r.
  repeat split; [|reflexivity..].
  rewrite !length_app, !missing_length. unfold Spec.false_flags. lia.
Qed.

(** X11. Read back by severity, the suggestions return their sources:
    the texts of the warnings are the [issues] of [validateFormat], the
    texts of the successes are the strengths, both in order, and there is
    one error per false presence flag, so four at most. *)
Theorem generateSuggestions_read_back (d : APIResponse) :
  map text (of_severity warning (generateSuggestions d))
  = issues (validateFormat d) /\
  map text (of_severity success (generateSuggestions d))
  = Spec.default_empty (strengths d) /\
  List.length (of_severity error (generateSuggestions d)) = Spec.false_flags d /\
  (Spec.false_flags d <= 4)%nat.
Proof.
  destruct (generateSuggestions_by_severity d) as (He & Hw & Hs).
  rewrite Hw, Hs, !map_text_tagged.
  split; [|split; [reflexivity|split; [exact He|]]].
  - unfold validateFormat; cbn [issues]. now destruct (formatIssues d).
  - unfold Spec.false_flags.
    destruct (hasContactInfo d), (hasWorkExperience d),
             (hasEducation d), (hasSkills d); cbn; lia.
Qed.

(** X12. There is nothing to suggest exactly when the four sections are
    present and there is neither a format issue nor a strength. *)
Theorem generateSuggestions_nil_iff (d : APIResponse) :
  generateSuggestions d = [] <->
  hasContactInfo d = true /\ hasWorkExperience d = true /\
  hasEducation d = true /\ hasSkills d = true /\
  Spec.no_issues (formatIssues d) /\
  (strengths d = None \/ strengths d = Some []).
Proof.
  rewrite generateSuggestions_eq.
  unfold Spec.generateSuggestions, Spec.no_issues.
  destruct (hasContactInfo d), (hasWorkExperience d),
           (hasEducation d), (hasSkills d),
           (formatIssues d) as [[|x l]|], (strengths d) as [[|y r]|];
    cbn; split; intros H; try discriminate H; try reflexivity;
    try (repeat split; auto; fail);
    destruct H as (H1 & H2 & H3 & H4 & H5 & H6);
    try discriminate;
    try (destruct H5; discriminate); try (destruct H6; discriminate).
Qed.

Lemma false_flags_deductions (d : APIResponse) :
  10 * Z.of_nat (Spec.false_flags d) <= flag_deductions d
  <= 15 * Z.of_nat (Spec.false_flags d).
Proof.
  unfold Spec.false_flags, flag_deductions.
  destruct (hasContactInfo d), (hasWorkExperience d),
           (hasEducation d), (hasSkills d); cbn; lia.
Qed.

(** X13. The parts of one result agree with each other.  With [e] error
    and [w] warning suggestions, the score lies between
    [max 0 (100 - 15 e - 5 w)] and [max 0 (100 - 10 e - 5 w)], so it is
    100 exactly when every suggestion is a success; the format is valid
    exactly when there is no warning; and there are as many warnings as
    [issues]. *)
Theorem analyze_consistent (d : APIResponse) :
  let r := analyze d in
  let e := count_severity error (suggestions r) in
  let w := count_severity warning (suggestions r) in
  Z.max 0 (100 - 15 * e - 5 * w) <= score r <= Z.max 0 (100 - 10 * e - 5 * w) /\
  (score r = 100 <-> e = 0 /\ w = 0) /\
  (isValid (format r) = true <-> w = 0) /\
  w = JS.length (issues (format r)).
Proof.
  cbv zeta. unfold analyze, count_severity. cbn [score suggestions format].
  destruct (generateSuggestions_by_severity d) as (He & Hw & _).
  rewrite He, Hw, length_map, calculateATSScore_closed.
  pose proof (false_flags_deductions d) as Hd.
  fold (issue_count d).
  assert (Hv : isValid (validateFormat d) = true <-> issue_count d = 0).
  { unfold validateFormat, issue_count; cbn [isValid].
    destruct (formatIssues d) as [[|x l]|]; cbn; split; intros H;
      try reflexivity; try discriminate H. }
  assert (Hi : issue_count d = JS.length (issues (validateFormat d))).
  { unfold validateFormat, issue_count; cbn [issues].
    now destruct (formatIssues d). }
  pose proof (issue_count_pos d).
  repeat split; try lia; tauto.
Qed.

(** ** The outcomes of the query function *)

Section QueryOutcomes.

Variable post_extract_text : File -> Promise string.
Variable post_analyze : string -> Promise APIResponse.

Let query := queryFn post_extract_text post_analyze.

(** A resolved query carries [analyze] of some structured response. *)
Lemma queryFn_resolved_analyze (file : FileState) (r : AnalysisResult) :
  query file = inr r -> exists data : APIResponse, r = analyze data.
Proof.
  subst query. destruct file as [f|]; cbn [queryFn]; [|discriminate].
  unfold analyzeResume. cbn.
  destruct (post_extract_text f) as [e1|resumeText]; cbn; [discriminate|].
  destruct (post_analyze resumeText) as [e2|data]; cbn; [discriminate|].
  intros [= <-]. now exists data.
Qed.

(** X14. The query resolves exactly when a file is selected and both
    requests resolve, the analysis request being made with the text the
    extraction returned; its value is then [analyze] of the structured
    response. *)
Theorem queryFn_resolves_iff (file : FileState) (r : AnalysisResult) :
  query file = inr r <->
  exists (f : File) (resumeText : string) (data : APIResponse),
    file = Some f /\
    post_extract_text f = inr resumeText /\
    post_analyze resumeText = inr data /\
    r = analyze data.
Proof.
  subst query. split.
  - destruct file as [f|]; cbn [queryFn]; [|discriminate].
    unfold analyzeResume. cbn.
    destruct (post_extract_text f) as [e1|resumeText] eqn:E1; cbn; [discriminate|].
    destruct (post_analyze resumeText) as [e2|data] eqn:E2; cbn; [discriminate|].
    intros [= <-]. exists f, resumeText, data. auto.
  - intros (f & resumeText & data & -> & H1 & H2 & ->).
    cbn [queryFn]. now apply analyzeResume_resolves with (resumeText := resumeText).
Qed.


(** X16. What a resolved query hands to the component is well formed:
    the score is a multiple of five between 0 and 100, no keyword occurs
    twice, and the format is valid exactly when it lists no issue. *)
Theorem queryFn_result_well_formed (file : FileState) (r : AnalysisResult) :
  query file = inr r ->
  (exists k : Z, 0 <= k <= 20 /\ score r = 5 * k) /\
  NoDup (keywords r) /\
  (isValid (format r) = true <-> issues (format r) = []).
Proof.
  intros H. apply queryFn_resolved_analyze in H. destruct H as [data ->].
  unfold analyze; cbn [score keywords format].
  split; [|split].
  - rewrite calculateATSScore_closed.
    destruct (flag_deductions_fives data) as [k Hk].
    pose proof (flag_deductions_range data). pose proof (issue_count_pos data).
    exists (Z.max 0 (20 - k - issue_count data)). lia.
  - rewrite extractKeywords_eq. apply first_occurrences_NoDup.
  - unfold validateFormat; cbn [isValid issues].
    destruct (formatIssues data) as [[|x l]|]; cbn; split; intros H;
      try reflexivity; discriminate H.
Qed.

(** X17. The query function throws the [FileNotSelectedError] on
    exactly the states for which the query is disabled ([enabled] is
    [!!file]). *)
Theorem no_file_error_iff_disabled (file : FileState) :
  (exists e : JsError,
     query file = inl e /\ instanceof_FileNotSelectedError e = true)
  <-> enabled file = false.
Proof.
  subst query. destruct file as [f|]; cbn [queryFn enabled truthy_file negb].
  - split; [|discriminate].
    intros (e & H & He). apply analyzeResume_rejects in H. subst e.
    discriminate He.
  - split; [reflexivity|]. intros _.
    exists (new_FileNotSelectedError "No file selected"). split; reflexivity.
Qed.

(** X18. Whatever makes the query fail, the alert shows one of two
    fixed texts, according to whether a file is selected; the message of
    a failed request is never shown. *)
Theorem alert_text_of_failure (file : FileState) (e : JsError) :
  query file = inl e ->
  alert_text (Some e)
  = Some (if enabled file then "Failed to analyze resume"
          else "No file selected").
Proof.
  subst query. destruct file as [f|]; cbn [queryFn enabled truthy_file negb].
  - intros H. apply analyzeResume_rejects in H. now subst e.
  - cbn. now intros [= <-].
Qed.

End QueryOutcomes.

Lemma queryFn_result_well_formed_witness :
  queryFn extract_up analyze_up (Some sample_file)
  = inr (analyze end_to_end_input) /\
  NoDup (keywords (analyze end_to_end_input)).
Proof.
  split; [reflexivity|].
  apply (queryFn_result_well_formed extract_up analyze_up
           (Some sample_file) (analyze end_to_end_input) eq_refl).
Defined.

Lemma alert_text_of_failure_witness :
  queryFn extract_up analyze_unauthorized (Some sample_file)
  = inl (new_Error "Failed to analyze resume") /\
  alert_text (Some (new_Error "Failed to analyze resume"))
  = Some "Failed to analyze resume".
Proof.
  split; [reflexivity|].
  apply (alert_text_of_failure extract_up analyze_unauthorized
           (Some sample_file) (new_Error "Failed to analyze resume")).
  reflexivity.
Defined.

(** ** The selected file *)

Lemma run_snoc (events : list Event) (ev : Event) (file : FileState) :
  run (events ++ [ev]) file = step (run events file) ev.
Proof. unfold run. now rewrite fold_left_app. Qed.

(** An event that writes the state sets it to its first file; any other
    event leaves it alone. *)
Lemma step_writes (file : FileState) (ev : Event) :
  step file ev = if writes_state ev then first_file ev else file.
Proof.
  destruct ev as [acceptedFiles|[l|]];
    unfold step, handleFileChange, writes_state, first_file;
    [reflexivity| |reflexivity].
  now destruct (nth_error l 0).
Qed.

(** X19. The selected file is decided by the last event that writes the
    state, that is the last drop or the last change that carries a file:
    it is the first file of that event, and the earlier state when there
    is no such event.  A drop without accepted file thus clears the
    selection, while a change without file keeps it. *)
Theorem run_last_write (events : list Event) (file : FileState) :
  run events file
  = match find writes_state (rev events) with
    | Some ev => first_file ev
    | None => file
    end.
Proof.
  induction events as [|ev events IH] using rev_ind; [reflexivity|].
  rewrite run_snoc, rev_app_distr, step_writes. cbn [rev app find].
  destruct (writes_state ev); [reflexivity | exact IH].
Qed.

(** X20. As long as the user only uses the file input, a selected file
    is never lost: the query stays enabled. *)
Theorem changes_keep_selection (events : list Event) (file : FileState) :
  forallb is_Change events = true ->
  enabled file = true ->
  enabled (run events file) = true.
Proof.
  unfold run. revert file.
  induction events as [|ev events IH]; intros file Hc He; [exact He|].
  cbn [forallb] in Hc. apply andb_prop in Hc. destruct Hc as [Hev Hc].
  cbn [fold_left]. apply IH; [exact Hc|].
  destruct ev as [acceptedFiles|[l|]]; [discriminate Hev| |exact He].
  cbn [step handleFileChange]. now destruct (nth_error l 0).
Qed.

Lemma changes_keep_selection_witness :
  enabled
    (run [Change (Some [other_file]); Change (Some []); Change None]
       (Some sample_file))
  = true.
Proof.
  apply (changes_keep_selection
           [Change (Some [other_file]); Change (Some []); Change None]
           (Some sample_file));
    reflexivity.
Defined.

(** ** The rendered list of suggestions *)

Lemma render_from (len : Z) (l : list Suggestion) : forall i : Z,
  len = i + JS.length l ->
  List.concat (map_from (render_suggestion len) i l)
  = separated
      (map (fun s => ListItem [icon_of (severity s)] (text s)) l).
Proof.
  induction l as [|s r IH]; intros i Hlen; [reflexivity|].
  cbn [map_from List.concat map].
  rewrite (IH (i + 1)).
  2:{ unfold JS.length in *. cbn [List.length] in Hlen. lia. }
  unfold render_suggestion.
  assert (Hicon :
    render_when (severity_eqb (severity s) error) ErrorIcon
    ++ render_when (severity_eqb (severity s) warning) WarningIcon
    ++ render_when (severity_eqb (severity s) success) CheckCircleIcon
    = [icon_of (severity s)]) by now destruct (severity s).
  rewrite Hicon.
  destruct r as [|s' r'].
  - assert (E : (i <? len - 1) = false).
    { apply Z.ltb_ge. unfold JS.length in Hlen. cbn [List.length] in Hlen. lia. }
    rewrite E. reflexivity.
  - assert (E : (i <? len - 1) = true).
    { apply Z.ltb_lt. unfold JS.length in Hlen. cbn [List.length] in Hlen. lia. }
    rewrite E. reflexivity.
Qed.

(** X21. The list shows one item per suggestion, in order, each with
    exactly one icon, the one of its severity, and its text; dividers
    stand between neighbouring items only, so none follows the last
    item and an empty list renders nothing. *)
Theorem render_suggestions_separated (l : list Suggestion) :
  render_suggestions l
  = separated (map (fun s => ListItem [icon_of (severity s)] (text s)) l).
Proof.
  unfold render_suggestions, map_with_index.
  apply render_from. lia.
Qed.
